(** * vchars proof-of-contribution: the scoring pipeline of [my_proof]

    A shallow embedding of [my_proof/proof.py] and
    [my_proof/filebase_service.py], together with the parts of the Python
    runtime they call ([hashlib.sha256], [hmac], [urllib.parse.parse_qsl],
    [json.loads], [str]/[repr], [datetime.strptime], [round]), and the
    properties of the pipeline stated in the specification.

    Conventions.
    - A Python [str] is a [string] holding its UTF-8 bytes; [s.encode()] is
      therefore the identity on the byte level.  Every string operation used
      by the code (equality, ordering, containment, concatenation) commutes
      with UTF-8 encoding.
    - An exception is a value of [exn]; a computation that may raise returns
      a [result].
    - The remote object store is explicit state, threaded through the calls.
    - Python [float] arithmetic is taken through the interface [PyNum], with
      two instances: IEEE binary64 (the kernel's primitive floats) and exact
      rationals.  Statements about all inputs that need order reasoning on
      numbers are proved for the exact instance; the binary64 instance is
      what concrete runs are evaluated in.

    Limits of the runtime model.
    - A float read from JSON is kept as its literal; it is not converted to
      binary64, so its [repr] is that of the literal.
    - Bytes obtained by percent-decoding are kept as they are; a character
      outside ASCII is its UTF-8 bytes, which [repr] leaves unescaped.
    - [strptime] reads ASCII digits only.
    - The interpreter's recursion limit and memory are not modelled. *)

From Stdlib Require Import ZArith List String Ascii Bool Lia QArith Qround DecimalString.
From Stdlib Require Import PrimFloat FloatOps Uint63 Lqa Permutation.
Import ListNotations.

Local Open Scope string_scope.
Local Open Scope list_scope.
Local Open Scope Z_scope.

Set Default Proof Using "Type".
Set Warnings "-register-all,-inexact-float".

(** ** Exceptions and results *)

Inductive exn : Type :=
| AttributeError        (* [.get] / [.encode] on a value that has no such method *)
| TypeError             (* [len], [in], [+] on operands of the wrong type *)
| JSONDecodeError       (* [json.load] / [json.loads] on a text that is not JSON *)
| ValueError            (* raised by [generate] when no record was loaded *)
| OSError               (* a file that cannot be opened or decoded *)
| ClientError.          (* any failure reported by the object store client *)

Inductive result (A : Type) : Type :=
| Ok (a : A)
| Raise (e : exn).
Arguments Ok {A} a.
Arguments Raise {A} e.

Definition bind {A B} (r : result A) (k : A -> result B) : result B :=
  match r with
  | Ok a => k a
  | Raise e => Raise e
  end.

Declare Scope result_scope.
Delimit Scope result_scope with result.
Notation "x <- r ;; k" := (bind r (fun x => k))
  (at level 61, r at next level, right associativity) : result_scope.
Local Open Scope result_scope.

(** ** Bytes and strings *)

Definition byte_of (c : ascii) : Z := Z.of_N (N_of_ascii c).
Definition ascii_of (z : Z) : ascii := ascii_of_N (Z.to_N (z mod 256)).

Fixpoint bytes_of (s : string) : list Z :=
  match s with
  | EmptyString => []
  | String c s' => byte_of c :: bytes_of s'
  end.

Fixpoint string_of (l : list Z) : string :=
  match l with
  | [] => EmptyString
  | z :: l' => String (ascii_of z) (string_of l')
  end.

(** [sub in s]: Python's containment test on strings. *)
Fixpoint contains (sub s : string) : bool :=
  if prefix sub s then true
  else match s with
       | EmptyString => false
       | String _ s' => contains sub s'
       end.

(** [sep.join(l)] *)
Fixpoint join (sep : string) (l : list string) : string :=
  match l with
  | [] => ""
  | [x] => x
  | x :: l' => (x ++ sep ++ join sep l')%string
  end.

Definition dquote : ascii := "034"%char.

Definition hex_digit (z : Z) : ascii :=
  if z <? 10 then ascii_of (48 + z) else ascii_of (87 + z).

Fixpoint hex_of_bytes (l : list Z) : string :=
  match l with
  | [] => ""
  | b :: l' => String (hex_digit (b / 16)) (String (hex_digit (b mod 16)) (hex_of_bytes l'))
  end.

(** ** [hashlib.sha256] (FIPS 180-4), on 32-bit words held in [Z] *)

Module Sha256.

Definition mask32 : Z := 0xffffffff.
Definition add32 (x y : Z) : Z := Z.land (x + y) mask32.
Definition rotr (n x : Z) : Z :=
  Z.lor (Z.shiftr x n) (Z.land (Z.shiftl x (32 - n)) mask32).
Definition not32 (x : Z) : Z := Z.lxor x mask32.

Definition Ch (x y z : Z) : Z := Z.lxor (Z.land x y) (Z.land (not32 x) z).
Definition Maj (x y z : Z) : Z :=
  Z.lxor (Z.lxor (Z.land x y) (Z.land x z)) (Z.land y z).
Definition Sigma0 (x : Z) : Z := Z.lxor (Z.lxor (rotr 2 x) (rotr 13 x)) (rotr 22 x).
Definition Sigma1 (x : Z) : Z := Z.lxor (Z.lxor (rotr 6 x) (rotr 11 x)) (rotr 25 x).
Definition sigma0 (x : Z) : Z := Z.lxor (Z.lxor (rotr 7 x) (rotr 18 x)) (Z.shiftr x 3).
Definition sigma1 (x : Z) : Z := Z.lxor (Z.lxor (rotr 17 x) (rotr 19 x)) (Z.shiftr x 10).

(** The constants are derived as the standard defines them, from the first
    primes: the first 32 bits of the fractional part of their cube roots for
    [K], of their square roots for [H0]. *)
Definition is_prime (n : Z) : bool :=
  forallb (fun d => negb (n mod Z.of_nat d =? 0)) (seq 2 (Z.to_nat n - 2)).

Definition primes (count : nat) : list Z :=
  firstn count (filter is_prime (map Z.of_nat (seq 2 310))).

(** The integer cube root of [n], one bit at a time from bit [bits] down. *)
Fixpoint cube_root (bits : nat) (n r : Z) : Z :=
  match bits with
  | O => r
  | S b =>
      let c := r + 2 ^ Z.of_nat b in
      if c * c * c <=? n then cube_root b n c else cube_root b n r
  end.

Definition K : list Z :=
  Eval vm_compute in map (fun p => Z.land (cube_root 44 (p * 2 ^ 96) 0) mask32) (primes 64).

Definition H0 : list Z :=
  Eval vm_compute in map (fun p => Z.land (Z.sqrt (p * 2 ^ 64)) mask32) (primes 8).

(** Big-endian encoding of [x] on [n] bytes. *)
Fixpoint be_bytes (n : nat) (x : Z) : list Z :=
  match n with
  | O => []
  | S n' => Z.land (Z.shiftr x (8 * Z.of_nat n')) 255 :: be_bytes n' x
  end.

(** Message padding: a 1 bit, zeros up to 56 mod 64, the bit length on 8 bytes. *)
Definition pad (msg : list Z) : list Z :=
  let len := Z.of_nat (List.length msg) in
  let zeros := Z.to_nat ((55 - len) mod 64) in
  msg ++ 128 :: repeat 0 zeros ++ be_bytes 8 (8 * len).

(** The words of a byte sequence, four bytes each. *)
Fixpoint words (fuel : nat) (l : list Z) : list Z :=
  match fuel, l with
  | S f, a :: b :: c :: d :: l' =>
      (Z.shiftl a 24 + Z.shiftl b 16 + Z.shiftl c 8 + d) :: words f l'
  | _, _ => []
  end.

(** The message schedule, newest word first: [w] holds W[t-1], W[t-2], ... *)
Fixpoint schedule (n : nat) (w : list Z) : list Z :=
  match n with
  | O => w
  | S n' =>
      let wt := add32 (add32 (add32 (sigma1 (nth 1 w 0)) (nth 6 w 0))
                             (sigma0 (nth 14 w 0))) (nth 15 w 0) in
      schedule n' (wt :: w)
  end.

Record regs := Regs { ra : Z; rb : Z; rc : Z; rd : Z; re : Z; rf : Z; rg : Z; rh : Z }.

Definition round (s : regs) (kw : Z * Z) : regs :=
  let '(k, w) := kw in
  let t1 := add32 (add32 (add32 (add32 (rh s) (Sigma1 (re s))) (Ch (re s) (rf s) (rg s))) k) w in
  let t2 := add32 (Sigma0 (ra s)) (Maj (ra s) (rb s) (rc s)) in
  Regs (add32 t1 t2) (ra s) (rb s) (rc s) (add32 (rd s) t1) (re s) (rf s) (rg s).

Definition regs_of (h : list Z) : regs :=
  Regs (nth 0 h 0) (nth 1 h 0) (nth 2 h 0) (nth 3 h 0)
       (nth 4 h 0) (nth 5 h 0) (nth 6 h 0) (nth 7 h 0).

Definition compress (h : list Z) (block : list Z) : list Z :=
  let w := rev (schedule 48 (rev block)) in
  let s := fold_left round (combine K w) (regs_of h) in
  map (fun p => add32 (fst p) (snd p))
      (combine h [ra s; rb s; rc s; rd s; re s; rf s; rg s; rh s]).

(** One compression per block of sixteen words. *)
Fixpoint blocks (fuel : nat) (h : list Z) (ws : list Z) : list Z :=
  match fuel, ws with
  | S f, _ :: _ => blocks f (compress h (firstn 16 ws)) (skipn 16 ws)
  | _, _ => h
  end.

(** The 32-byte digest of a byte sequence. *)
Definition digest (msg : list Z) : list Z :=
  let p := pad msg in
  let ws := words (List.length p) p in
  flat_map (be_bytes 4) (blocks (List.length ws) H0 ws).

Definition hexdigest (msg : list Z) : string := hex_of_bytes (digest msg).

End Sha256.

(** ** [hmac.new(key, msg, hashlib.sha256)] (RFC 2104, block size 64) *)

Module Hmac.

Definition block_size : nat := 64.

Definition key_block (key : list Z) : list Z :=
  let k := if (block_size <? List.length key)%nat then Sha256.digest key else key in
  k ++ repeat 0 (block_size - List.length k).

Definition digest (key msg : list Z) : list Z :=
  let k := key_block key in
  let ipad := map (Z.lxor 0x36) k in
  let opad := map (Z.lxor 0x5c) k in
  Sha256.digest (opad ++ Sha256.digest (ipad ++ msg)).

Definition hexdigest (key msg : list Z) : string := hex_of_bytes (digest key msg).

End Hmac.

(** ** Python values, as [json.load] produces them *)

(** A [dict] keeps its keys in insertion order, and [str] of a dict prints
    them in that order: it is an association list with distinct keys.  A number
    literal with a fraction or an exponent is a Python [float]; the value is
    kept as its source text, which is what [repr] prints for a literal that is
    already in shortest form (["1.5"], ["0.25"]). *)
Inductive json : Type :=
| JNull
| JBool (b : bool)
| JInt (n : Z)
| JFloat (lit : string)
| JStr (s : string)
| JList (l : list json)
| JDict (d : list (string * json)).

Module Py.

(** [d.get(k)]: the value bound to [k], if any. *)
Fixpoint lookup {V} (k : string) (d : list (string * V)) : option V :=
  match d with
  | [] => None
  | (k', v) :: d' => if String.eqb k k' then Some v else lookup k d'
  end.

(** [d[k] = v]: an existing key keeps its position. *)
Fixpoint setitem {V} (k : string) (v : V) (d : list (string * V)) : list (string * V) :=
  match d with
  | [] => [(k, v)]
  | (k', v') :: d' =>
      if String.eqb k k' then (k, v) :: d' else (k', v') :: setitem k v d'
  end.

(** [dict(pairs)] *)
Definition dict_of {V} (pairs : list (string * V)) : list (string * V) :=
  fold_left (fun d kv => setitem (fst kv) (snd kv) d) pairs [].

(** [x.get(k, default)] on an arbitrary value: only a dict has [.get]. *)
Definition get (x : json) (k : string) (default : json) : result json :=
  match x with
  | JDict d => Ok (match lookup k d with Some v => v | None => default end)
  | _ => Raise AttributeError
  end.

(** A mantissa that denotes zero: it has digits, all of them 0.  The
    literals [nan] and [inf] have none. *)
Definition all_zero_digits (s : string) : bool :=
  existsb (fun b => b =? 48) (bytes_of s)
  && forallb (fun b => negb ((49 <=? b) && (b <=? 57))) (bytes_of s).

(** The mantissa of a float literal: what precedes the exponent. *)
Fixpoint mantissa (s : string) : string :=
  match s with
  | EmptyString => ""
  | String c s' => if (byte_of c =? 101) || (byte_of c =? 69) then "" else String c (mantissa s')
  end.

(** [bool(x)] *)
Definition truthy (x : json) : bool :=
  match x with
  | JNull => false
  | JBool b => b
  | JInt n => negb (n =? 0)
  | JFloat lit => negb (all_zero_digits (mantissa lit))
  | JStr s => negb (String.eqb s "")
  | JList l => match l with [] => false | _ => true end
  | JDict d => match d with [] => false | _ => true end
  end.

Definition hex2 (b : Z) : string :=
  String (hex_digit (b / 16)) (String (hex_digit (b mod 16)) "").

(** One character of [repr(s)], [q] being the quote in use.  Bytes above 127
    belong to the encoding of a non-ASCII character and are kept. *)
Definition repr_char (q : Z) (c : ascii) : string :=
  let b := byte_of c in
  if b =? 92 then "\\"
  else if b =? q then String "\" (String c "")
  else if b =? 9 then "\t"
  else if b =? 10 then "\n"
  else if b =? 13 then "\r"
  else if (b <? 32) || (b =? 127) then ("\x" ++ hex2 b)%string
  else String c "".

Fixpoint repr_chars (q : Z) (s : string) : string :=
  match s with
  | EmptyString => ""
  | String c s' => (repr_char q c ++ repr_chars q s')%string
  end.

(** [repr(s)] for a string: single quotes, unless the string has a single
    quote and no double quote. *)
Definition repr_str (s : string) : string :=
  let q := if contains "'" s && negb (contains (String dquote "") s) then 34 else 39 in
  String (ascii_of q) (repr_chars q s ++ String (ascii_of q) "")%string.

Definition repr_int (n : Z) : string :=
  DecimalString.NilZero.string_of_int (Z.to_int n).

(** [repr(x)] *)
Fixpoint repr (x : json) : string :=
  match x with
  | JNull => "None"
  | JBool true => "True"
  | JBool false => "False"
  | JInt n => repr_int n
  | JFloat lit => lit
  | JStr s => repr_str s
  | JList l => ("[" ++ join ", " (map repr l) ++ "]")%string
  | JDict d =>
      ("{" ++ join ", " (map (fun kv => repr_str (fst kv) ++ ": " ++ repr (snd kv)) d) ++ "}")%string
  end.

(** [str(x)]: a string is itself, anything else is its [repr]. *)
Definition str (x : json) : string :=
  match x with
  | JStr s => s
  | _ => repr x
  end.

End Py.

(** ** [json.loads] *)

(** The decoder of the standard library, with its default settings: strict
    strings, [NaN] and [Infinity] accepted, later duplicates of a key
    overriding earlier ones.  Every call consumes at least one character, so
    the fuel [json_loads] passes, the length of the text, is never exhausted. *)
Module Json.

Definition is_ws (b : Z) : bool := (b =? 32) || (b =? 9) || (b =? 10) || (b =? 13).
Definition is_digit (b : Z) : bool := (48 <=? b) && (b <=? 57).

Fixpoint skip_ws (s : string) : string :=
  match s with
  | String c s' => if is_ws (byte_of c) then skip_ws s' else s
  | EmptyString => s
  end.

Fixpoint span_digits (s : string) : string * string :=
  match s with
  | String c s' =>
      if is_digit (byte_of c)
      then let '(ds, r) := span_digits s' in (String c ds, r)
      else ("", s)
  | EmptyString => ("", s)
  end.

Definition decimal (ds : string) : Z :=
  fold_left (fun acc b => 10 * acc + (b - 48)) (bytes_of ds) 0.

Definition hex_val (b : Z) : option Z :=
  if is_digit b then Some (b - 48)
  else if (97 <=? b) && (b <=? 102) then Some (b - 87)
  else if (65 <=? b) && (b <=? 70) then Some (b - 55)
  else None.

Definition hex4 (s : string) : option (Z * string) :=
  match s with
  | String a (String b (String c (String d r))) =>
      match hex_val (byte_of a), hex_val (byte_of b), hex_val (byte_of c), hex_val (byte_of d) with
      | Some x, Some y, Some z, Some w => Some (((x * 16 + y) * 16 + z) * 16 + w, r)
      | _, _, _, _ => None
      end
  | _ => None
  end.

(** The UTF-8 encoding of a code point. *)
Definition utf8 (cp : Z) : string :=
  string_of
    (if cp <? 0x80 then [cp]
     else if cp <? 0x800 then [0xc0 + cp / 64; 0x80 + cp mod 64]
     else if cp <? 0x10000 then [0xe0 + cp / 4096; 0x80 + (cp / 64) mod 64; 0x80 + cp mod 64]
     else [0xf0 + cp / 262144; 0x80 + (cp / 4096) mod 64; 0x80 + (cp / 64) mod 64; 0x80 + cp mod 64]).

Definition strip_prefix (p s : string) : option string :=
  if prefix p s then Some (substring (String.length p) (String.length s - String.length p) s)
  else None.

(** The character an escape letter stands for. *)
Definition unescape (b : Z) : option Z :=
  if b =? 34 then Some 34            (* quote *)
  else if b =? 92 then Some 92       (* backslash *)
  else if b =? 47 then Some 47       (* slash *)
  else if b =? 98 then Some 8        (* b *)
  else if b =? 102 then Some 12      (* f *)
  else if b =? 110 then Some 10      (* n *)
  else if b =? 114 then Some 13      (* r *)
  else if b =? 116 then Some 9       (* t *)
  else None.

Definition cons_str (p : string) (r : option (string * string)) : option (string * string) :=
  match r with
  | Some (t, rest) => Some ((p ++ t)%string, rest)
  | None => None
  end.

(** [scanstring]: [s] starts just after the opening quote. *)
Fixpoint scanstring (fuel : nat) (s : string) : option (string * string) :=
  match fuel, s with
  | S f, String c s' =>
      let b := byte_of c in
      if b =? 34 then Some ("", s')
      else if b <? 32 then None
      else if b =? 92 then
        match s' with
        | EmptyString => None
        | String e s'' =>
            if byte_of e =? 117 then
              match hex4 s'' with
              | None => None
              | Some (hi, r) =>
                  let pair :=
                    if (0xd800 <=? hi) && (hi <=? 0xdbff) then
                      match strip_prefix "\u" r with
                      | Some r1 =>
                          match hex4 r1 with
                          | Some (lo, r2) =>
                              if (0xdc00 <=? lo) && (lo <=? 0xdfff)
                              then Some (0x10000 + ((hi - 0xd800) * 1024 + (lo - 0xdc00)), r2)
                              else None
                          | None => None
                          end
                      | None => None
                      end
                    else None in
                  match pair with
                  | Some (cp, r2) => cons_str (utf8 cp) (scanstring f r2)
                  | None => cons_str (utf8 hi) (scanstring f r)
                  end
              end
            else
              match unescape (byte_of e) with
              | Some ch => cons_str (String (ascii_of ch) "") (scanstring f s'')
              | None => None
              end
        end
      else cons_str (String c "") (scanstring f s')
  | _, _ => None
  end.

(** A number: an integer part, an optional fraction, an optional exponent.  An
    incomplete fraction or exponent is left unread. *)
Definition scan_number (s : string) : option (json * string) :=
  let '(sign, s1) :=
    match s with
    | String c r => if byte_of c =? 45 then ("-", r) else ("", s)
    | EmptyString => ("", s)
    end in
  match s1 with
  | String c r =>
      let b := byte_of c in
      let int_part :=
        if b =? 48 then Some (String c "", r)
        else if is_digit b then let '(ds, r') := span_digits r in Some (String c ds, r')
        else None in
      match int_part with
      | None => None
      | Some (ip, r1) =>
          let '(frac, r2) :=
            match r1 with
            | String d r' =>
                if byte_of d =? 46 then
                  let '(fd, rf) := span_digits r' in
                  if String.eqb fd "" then ("", r1) else (String d fd, rf)
                else ("", r1)
            | EmptyString => ("", r1)
            end in
          let '(exp, r3) :=
            match r2 with
            | String e r' =>
                if (byte_of e =? 101) || (byte_of e =? 69) then
                  let '(sg, rs) :=
                    match r' with
                    | String g t => if (byte_of g =? 45) || (byte_of g =? 43)
                                    then (String g "", t) else ("", r')
                    | EmptyString => ("", r')
                    end in
                  let '(ed, re) := span_digits rs in
                  if String.eqb ed "" then ("", r2) else ((String e sg ++ ed)%string, re)
                else ("", r2)
            | EmptyString => ("", r2)
            end in
          if String.eqb frac "" && String.eqb exp ""
          then Some (JInt ((if String.eqb sign "" then 1 else -1) * decimal ip), r3)
          else Some (JFloat (sign ++ ip ++ frac ++ exp)%string, r3)
      end
  | EmptyString => None
  end.

Definition scan_literal (s : string) : option (json * string) :=
  match strip_prefix "null" s with Some r => Some (JNull, r) | None =>
  match strip_prefix "true" s with Some r => Some (JBool true, r) | None =>
  match strip_prefix "false" s with Some r => Some (JBool false, r) | None =>
  match strip_prefix "NaN" s with Some r => Some (JFloat "nan", r) | None =>
  match strip_prefix "Infinity" s with Some r => Some (JFloat "inf", r) | None =>
  match strip_prefix "-Infinity" s with Some r => Some (JFloat "-inf", r) | None =>
  scan_number s
  end end end end end end.

(** [scan_once] reads one value; [scan_members] reads the members of an
    object from the quote of a key on, [scan_elements] the elements of an
    array from the first character of an element on. *)
Fixpoint scan_once (fuel : nat) (s : string) : option (json * string) :=
  match fuel, s with
  | S f, String c s' =>
      let b := byte_of c in
      if b =? 34 then
        match scanstring (String.length s') s' with
        | Some (t, r) => Some (JStr t, r)
        | None => None
        end
      else if b =? 123 then
        match skip_ws s' with
        | String c1 r1 =>
            if byte_of c1 =? 125 then Some (JDict [], r1)
            else scan_members f (skip_ws s') []
        | EmptyString => None
        end
      else if b =? 91 then
        match skip_ws s' with
        | String c1 r1 =>
            if byte_of c1 =? 93 then Some (JList [], r1)
            else scan_elements f (skip_ws s') []
        | EmptyString => None
        end
      else scan_literal s
  | _, _ => None
  end
with scan_members (fuel : nat) (s : string) (acc : list (string * json)) : option (json * string) :=
  match fuel, s with
  | S f, String c s' =>
      if byte_of c =? 34 then
        match scanstring (String.length s') s' with
        | None => None
        | Some (k, r) =>
            match skip_ws r with
            | String colon r1 =>
                if byte_of colon =? 58 then
                  match scan_once f (skip_ws r1) with
                  | None => None
                  | Some (v, r2) =>
                      match skip_ws r2 with
                      | String d r3 =>
                          if byte_of d =? 125 then Some (JDict (Py.setitem k v acc), r3)
                          else if byte_of d =? 44
                          then scan_members f (skip_ws r3) (Py.setitem k v acc)
                          else None
                      | EmptyString => None
                      end
                  end
                else None
            | EmptyString => None
            end
        end
      else None
  | _, _ => None
  end
with scan_elements (fuel : nat) (s : string) (acc : list json) : option (json * string) :=
  match fuel with
  | S f =>
      match scan_once f s with
      | None => None
      | Some (v, r) =>
          match skip_ws r with
          | String d r1 =>
              if byte_of d =? 93 then Some (JList (rev (v :: acc)), r1)
              else if byte_of d =? 44 then scan_elements f (skip_ws r1) (v :: acc)
              else None
          | EmptyString => None
          end
      end
  | O => None
  end.

(** [json.loads(s)] *)
Definition loads (s : string) : result json :=
  match scan_once (S (String.length s)) (skip_ws s) with
  | Some (v, r) =>
      if String.eqb (skip_ws r) "" then Ok v else Raise JSONDecodeError
  | None => Raise JSONDecodeError
  end.

End Json.

(** [q s] is [s] between double quotes. *)
Definition q (s : string) : string := (String dquote s ++ String dquote "")%string.

(** ** [urllib.parse.parse_qsl] *)

Module Urllib.

(** [s.split(sep)] for a one-character separator. *)
Fixpoint split (sep : Z) (s : string) : list string :=
  match s with
  | EmptyString => [""]
  | String c s' =>
      if byte_of c =? sep then "" :: split sep s'
      else match split sep s' with
           | h :: t => String c h :: t
           | [] => [String c ""]
           end
  end.

(** [s.split('=', 1)], when it has two parts. *)
Fixpoint split_eq (s : string) : option (string * string) :=
  match s with
  | EmptyString => None
  | String c s' =>
      if byte_of c =? 61 then Some ("", s')
      else match split_eq s' with
           | Some (n, v) => Some (String c n, v)
           | None => None
           end
  end.

(** [s.replace('+', ' ')] *)
Fixpoint plus_to_space (s : string) : string :=
  match s with
  | EmptyString => ""
  | String c s' => String (if byte_of c =? 43 then ascii_of 32 else c) (plus_to_space s')
  end.

(** [unquote]: a percent sign followed by two hexadecimal digits is the byte
    they denote; any other percent sign stands for itself.  The decoded bytes
    are kept as they are (Python substitutes U+FFFD for bytes that are not
    valid UTF-8). *)
Fixpoint unquote (s : string) : string :=
  match s with
  | EmptyString => ""
  | String c s' =>
      if byte_of c =? 37 then
        match s' with
        | String a (String b r) =>
            match Json.hex_val (byte_of a), Json.hex_val (byte_of b) with
            | Some x, Some y => String (ascii_of (16 * x + y)) (unquote r)
            | _, _ => String c (unquote s')
            end
        | _ => String c (unquote s')
        end
      else String c (unquote s')
  end.

(** [parse_qsl(qs)] with the default arguments: fields without an equals sign
    and fields with an empty value are dropped.  [None] and the empty string
    give no field. *)
Definition parse_qsl (qs : option string) : list (string * string) :=
  match qs with
  | None => []
  | Some s =>
      if String.eqb s "" then []
      else
        flat_map
          (fun name_value =>
             match split_eq name_value with
             | None => []
             | Some (n, v) =>
                 if String.eqb v "" then []
                 else [(unquote (plus_to_space n), unquote (plus_to_space v))]
             end)
          (split 38 s)
  end.

End Urllib.

(** ** [datetime.strptime(s, "%Y-%m-%dT%H:%M:%S")] *)

(** A naive datetime is the number of seconds since the start of the
    proleptic Gregorian day of ordinal 0, so that the difference of two
    datetimes is their [total_seconds()]. *)
Module Datetime.

Definition is_leap (y : Z) : bool :=
  (y mod 4 =? 0) && (negb (y mod 100 =? 0) || (y mod 400 =? 0)).

Definition days_in_month (y m : Z) : Z :=
  if m =? 2 then (if is_leap y then 29 else 28)
  else if (m =? 4) || (m =? 6) || (m =? 9) || (m =? 11) then 30
  else 31.

Definition days_before_year (y : Z) : Z :=
  let y1 := y - 1 in y1 * 365 + y1 / 4 - y1 / 100 + y1 / 400.

Definition days_before_month (y m : Z) : Z :=
  fold_left (fun acc k => acc + days_in_month y (Z.of_nat k)) (seq 1 (Z.to_nat (m - 1))) 0.

(** [date(y, m, d).toordinal()] *)
Definition ymd2ord (y m d : Z) : Z := days_before_year y + days_before_month y m + d.

(** The constructor, which rejects a date or a time out of range. *)
Definition datetime (y m d hh mm ss : Z) : option Z :=
  if (1 <=? y) && (y <=? 9999) && (1 <=? m) && (m <=? 12)
     && (1 <=? d) && (d <=? days_in_month y m)
     && (0 <=? hh) && (hh <=? 23) && (0 <=? mm) && (mm <=? 59) && (0 <=? ss) && (ss <=? 59)
  then Some (((ymd2ord y m d * 24 + hh) * 60 + mm) * 60 + ss)
  else None.

Definition digit (c : ascii) : option Z :=
  if Json.is_digit (byte_of c) then Some (byte_of c - 48) else None.

(** A directive of one or two digits, as the regular expression reads it: the
    two-digit alternatives first, then the single digit, each tried against
    the rest of the format [k]. *)
Definition field {A} (two : Z -> Z -> bool) (one : Z -> bool)
    (s : string) (k : Z -> string -> option A) : option A :=
  let single :=
    match s with
    | String a r =>
        match digit a with
        | Some x => if one x then k x r else None
        | None => None
        end
    | EmptyString => None
    end in
  match s with
  | String a (String b r) =>
      match digit a, digit b with
      | Some x, Some y =>
          if two x y
          then match k (10 * x + y) r with Some v => Some v | None => single end
          else single
      | _, _ => single
      end
  | _ => single
  end.

(** A literal character of the format; the match ignores case. *)
Definition lit {A} (b : Z) (s : string) (k : string -> option A) : option A :=
  match s with
  | String c r =>
      if (byte_of c =? b) || ((65 <=? b) && (b <=? 90) && (byte_of c =? b + 32))
      then k r else None
  | EmptyString => None
  end.

Definition year {A} (s : string) (k : Z -> string -> option A) : option A :=
  match s with
  | String a (String b (String c (String d r))) =>
      match digit a, digit b, digit c, digit d with
      | Some x, Some y, Some z, Some w => k (((x * 10 + y) * 10 + z) * 10 + w) r
      | _, _, _, _ => None
      end
  | _ => None
  end.

(** [%d] also reads a space followed by a digit. *)
Definition day {A} (s : string) (k : Z -> string -> option A) : option A :=
  match field (fun x y => ((x =? 3) && (y <=? 1)) || ((1 <=? x) && (x <=? 2)) || ((x =? 0) && (1 <=? y)))
              (fun x => 1 <=? x) s k with
  | Some v => Some v
  | None =>
      match s with
      | String sp (String a r) =>
          if byte_of sp =? 32 then
            match digit a with
            | Some x => if 1 <=? x then k x r else None
            | None => None
            end
          else None
      | _ => None
      end
  end.

Definition month {A} := @field A (fun x y => ((x =? 1) && (y <=? 2)) || ((x =? 0) && (1 <=? y))) (fun x => 1 <=? x).
Definition hour {A} := @field A (fun x y => ((x =? 2) && (y <=? 3)) || (x <=? 1)) (fun _ => true).
Definition minute {A} := @field A (fun x _ => x <=? 5) (fun _ => true).
Definition second {A} := @field A (fun x y => ((x =? 6) && (y <=? 1)) || (x <=? 5)) (fun _ => true).

(** The match must cover the whole string; the fields then go through the
    constructor.  [None] stands for the [ValueError] of either step. *)
Definition strptime (s : string) : option Z :=
  match
    year s (fun y s => lit 45 s (fun s =>
    month s (fun m s => lit 45 s (fun s =>
    day s (fun d s => lit 84 s (fun s =>
    hour s (fun hh s => lit 58 s (fun s =>
    minute s (fun mm s => lit 58 s (fun s =>
    second s (fun ss s => Some (y, m, d, hh, mm, ss, s))))))))))))
  with
  | Some (y, m, d, hh, mm, ss, rest) =>
      if String.eqb rest "" then datetime y m d hh mm ss else None
  | None => None
  end.

End Datetime.

(** ** Python arithmetic *)

(** [round_half_even n d]: the integer nearest to [n/d] ([d] positive), ties
    going to the even one.  [round(x, 3)] is this rounding of [1000 x],
    divided by 1000. *)
Definition round_half_even (n d : Z) : Z :=
  let k := n / d in
  let r := n mod d in
  if 2 * r <? d then k
  else if d <? 2 * r then k + 1
  else if Z.even k then k else k + 1.

(** The operations of the scoring code on Python's numbers. *)
Class PyNum (F : Type) : Type := {
  of_int : Z -> F;              (* the float of an integer *)
  ratio : Z -> Z -> F;          (* [a / b] on integers, and the literal [a/b] *)
  add : F -> F -> F;
  sub : F -> F -> F;
  mul : F -> F -> F;
  div : F -> F -> F;
  ltb : F -> F -> bool;
  eqb : F -> F -> bool;
  round3 : F -> F               (* [round(x, 3)] *)
}.

(** [min(1, x)]: the first argument unless the second is smaller. *)
Definition min1 {F} `{PyNum F} (x : F) : F := if ltb x (of_int 1) then x else of_int 1.

(** IEEE binary64, as CPython computes.  Integers below 2^53 in magnitude
    convert exactly, and the quotient of two of them is correctly rounded, as
    is Python's integer division and its reading of a decimal literal.
    [round(x, 3)] takes the decimal nearest to the exact value of [x] and
    returns the float nearest to it. *)
Module Binary64.

Definition of_int (n : Z) : float := SF2Prim (SpecFloat.binary_normalize prec emax n 0 false).

Definition ratio (a b : Z) : float := PrimFloat.div (of_int a) (of_int b).

Definition round3 (x : float) : float :=
  match Prim2SF x with
  | SpecFloat.S754_finite s m e =>
      if 0 <=? e then x
      else
        let r := ratio (round_half_even (Z.pos m * 1000) (2 ^ (- e))) 1000 in
        if s then PrimFloat.opp r else r
  | _ => x
  end.

End Binary64.

#[export] Instance binary64 : PyNum float := {
  of_int := Binary64.of_int;
  ratio := Binary64.ratio;
  add := PrimFloat.add;
  sub := PrimFloat.sub;
  mul := PrimFloat.mul;
  div := PrimFloat.div;
  ltb := PrimFloat.ltb;
  eqb := PrimFloat.eqb;
  round3 := Binary64.round3
}.

(** Exact rational arithmetic: the same formulas without rounding error. *)
Module Exact.

Definition ratio (a b : Z) : Q := Qred (inject_Z a / inject_Z b).

Definition round3 (x : Q) : Q :=
  Qred (inject_Z (round_half_even (Qnum x * 1000) (Z.pos (Qden x))) / 1000).

End Exact.

#[export] Instance exact : PyNum Q := {
  of_int := inject_Z;
  ratio := Exact.ratio;
  add := fun x y => Qred (x + y);
  sub := fun x y => Qred (x - y);
  mul := fun x y => Qred (x * y);
  div := fun x y => Qred (x / y);
  ltb := fun x y => negb (Qle_bool y x);
  eqb := Qeq_bool;
  round3 := Exact.round3
}.

(** ** The remote object store *)

(** The bucket holds at most one object under the registry key.  Its body is
    identified with the JSON document it encodes: [json.dumps] followed by
    [json.loads] is the identity on values read from JSON.  [Garbage] is a
    body that does not decode.  Each request consumes one entry of [outages];
    [true] makes that request fail in transport. *)
Inductive body : Type :=
| Garbage
| Doc (v : json).

Record s3 : Type := S3 {
  object : option body;
  outages : list bool
}.

Definition request (s : s3) : bool * s3 :=
  match outages s with
  | [] => (false, s)
  | down :: rest => (down, S3 (object s) rest)
  end.

(** [s3_client.get_object]: a missing key is an error ([NoSuchKey]). *)
Definition get_object (s : s3) : result body * s3 :=
  let '(down, s') := request s in
  if down then (Raise ClientError, s')
  else match object s' with
       | Some b => (Ok b, s')
       | None => (Raise ClientError, s')
       end.

(** [s3_client.put_object] *)
Definition put_object (b : body) (s : s3) : result unit * s3 :=
  let '(down, s') := request s in
  if down then (Raise ClientError, s')
  else (Ok tt, S3 (Some b) (outages s')).

(** ** [filebase_service.py] *)

Module FilebaseService.

Definition generate_hash (input : json) : string :=
  Sha256.hexdigest (bytes_of (Py.str input)).

(** The handler logs and re-raises: every failure propagates. *)
Definition get_hash_list (s : s3) : result json * s3 :=
  match get_object s with
  | (Ok (Doc data), s') => (Py.get data "hash_list" (JList []), s')
  | (Ok Garbage, s') => (Raise JSONDecodeError, s')
  | (Raise e, s') => (Raise e, s')
  end.

(** [existing_hashes + [new_hash]] *)
Definition append_hash (existing_hashes : json) (new_hash : string) : result json :=
  match existing_hashes with
  | JList l => Ok (JList (l ++ [JStr new_hash]))
  | _ => Raise TypeError
  end.

Definition update_hash_list (existing_hashes : json) (new_hash : string) (s : s3)
  : result bool * s3 :=
  match append_hash existing_hashes new_hash with
  | Raise e => (Raise e, s)
  | Ok l =>
      match put_object (Doc (JDict [("hash_list", l)])) s with
      | (Ok _, s') => (Ok true, s')
      | (Raise e, s') => (Raise e, s')
      end
  end.

End FilebaseService.

(** [x in c] for a string [x]: an element of a list, a substring of a
    string, a key of a dict. *)
Definition py_in (x : string) (c : json) : result bool :=
  match c with
  | JList l => Ok (existsb (fun y => match y with JStr s => String.eqb x s | _ => false end) l)
  | JStr s => Ok (contains x s)
  | JDict d => Ok (match Py.lookup x d with Some _ => true | None => false end)
  | _ => Raise TypeError
  end.

(** What [len] counts and [for] visits. *)
Definition py_iter (c : json) : result (list json) :=
  match c with
  | JList l => Ok l
  | JStr s => Ok (map (fun a => JStr (String a "")) (list_ascii_of_string s))
  | JDict d => Ok (map (fun kv => JStr (fst kv)) d)
  | _ => Raise TypeError
  end.

(** [sorted] on the items of a dict of strings: tuples compare by key, then
    by value. *)
Definition item_leb (a b : string * string) : bool :=
  String.ltb (fst a) (fst b) || (String.eqb (fst a) (fst b) && String.leb (snd a) (snd b)).

Fixpoint insert_item (a : string * string) (l : list (string * string)) : list (string * string) :=
  match l with
  | [] => [a]
  | b :: l' => if item_leb a b then a :: l else b :: insert_item a l'
  end.

Definition sorted (l : list (string * string)) : list (string * string) :=
  fold_right insert_item [] l.

Definition newline : string := String (ascii_of 10) "".

(** ** [proof.py] *)

Record config : Type := Config {
  dlp_id : Z;
  input_dir : string;
  telegram_bot_access_key : option string;
  allow_reuse : option string;
  tg_init_data : option string;
  filebase_access_key_id : option string;
  filebase_secret_access_key : option string
}.

(** A directory entry: a file that reads as text, or one that cannot be read
    as text (a subdirectory, a binary file, a file without permission). *)
Inductive file : Type :=
| Text (content : string)
| Unreadable.

Record stats : Type := Stats {
  total_messages : nat;
  empty_messages : nat;
  invalid_dates : nat;
  large_gaps : nat;
  replies : nat
}.

Record scores (F : Type) : Type := Scores {
  content : F;
  time : F;
  interaction : F
}.
Arguments Scores {F} _ _ _.
Arguments content {F} _.
Arguments time {F} _.
Arguments interaction {F} _.

Record quality_data (F : Type) : Type := QualityData {
  quality_score : F;
  component_scores : scores F;
  qstats : stats
}.
Arguments QualityData {F} _ _ _.
Arguments quality_score {F} _.
Arguments component_scores {F} _.
Arguments qstats {F} _.

Record attributes (F : Type) : Type := Attributes {
  a_stats : stats;
  messages_count : nat;
  a_component_scores : scores F;
  character_slug : json;
  character_level : json
}.
Arguments Attributes {F} _ _ _ _ _.
Arguments a_stats {F} _.
Arguments messages_count {F} _.
Arguments a_component_scores {F} _.
Arguments character_slug {F} _.
Arguments character_level {F} _.

Record metadata : Type := Metadata {
  m_dlp_id : Z;
  m_type : json;
  m_allow_reuse : option string
}.

(** Modelled from the spec: [my_proof/models/proof_response.py], the class
    [ProofResponse], is not among the sources.  The output contract lists its
    fields: [dlp_id, uniqueness, ownership, authenticity, quality, score,
    valid, attributes, metadata]. *)
Record ProofResponse (F : Type) : Type := Response {
  r_dlp_id : Z;
  uniqueness : F;
  ownership : F;
  authenticity : F;
  quality : F;
  score : F;
  valid : bool;
  r_attributes : attributes F;
  r_metadata : metadata
}.
Arguments Response {F} _ _ _ _ _ _ _ _ _.
Arguments r_dlp_id {F} _.
Arguments uniqueness {F} _.
Arguments ownership {F} _.
Arguments authenticity {F} _.
Arguments quality {F} _.
Arguments score {F} _.
Arguments valid {F} _.
Arguments r_attributes {F} _.
Arguments r_metadata {F} _.

Section Proof.

Context {F : Type} `{PyNum F}.

Definition zero : F := of_int 0.
Definition one : F := of_int 1.

Definition calc_uniqueness (cfg : config) (input : json) (s : s3) : result F * s3 :=
  let generated_hash := FilebaseService.generate_hash input in
  match FilebaseService.get_hash_list s with
  | (Raise e, s1) => (Raise e, s1)
  | (Ok existing_hashes, s1) =>
      match py_in generated_hash existing_hashes with
      | Raise e => (Raise e, s1)
      | Ok true => (Ok zero, s1)
      | Ok false =>
          match FilebaseService.update_hash_list existing_hashes generated_hash s1 with
          | (Raise e, s2) => (Raise e, s2)
          | (Ok _, s2) => (Ok one, s2)
          end
      end
  end.

(** The [try] block of the message loop: [msg["date"]] read and parsed.
    [None] is any exception: a missing key, a date that is not a string, a
    string that does not match the format. *)
Definition parse_date (msg : json) : option Z :=
  match msg with
  | JDict d =>
      match Py.lookup "date" d with
      | Some (JStr s) => Datetime.strptime s
      | _ => None
      end
  | _ => None
  end.

(** One turn of the message loop, on the counters and the previous date. *)
Definition analyze (st : stats * option Z) (msg : json) : result (stats * option Z) :=
  let '(Stats total empty invalid gaps reps, prev_date) := st in
  text <- Py.get msg "text" JNull ;;
  let empty := if negb (Py.truthy text) then S empty else empty in
  reply <- Py.get msg "reply_to_message_id" JNull ;;
  let reps := if Py.truthy reply then S reps else reps in
  match parse_date msg with
  | Some current_date =>
      let gaps :=
        match prev_date with
        | Some p => if 86400 <? current_date - p then S gaps else gaps
        | None => gaps
        end in
      Ok (Stats total empty invalid gaps reps, Some current_date)
  | None => Ok (Stats total empty (S invalid) gaps reps, prev_date)
  end.

Fixpoint analyze_all (msgs : list json) (st : stats * option Z) : result (stats * option Z) :=
  match msgs with
  | [] => Ok st
  | msg :: rest => st' <- analyze st msg ;; analyze_all rest st'
  end.

Definition count (n : nat) : Z := Z.of_nat n.

(** The three component scores of the counters. *)
Definition component (st : stats) : scores F :=
  if Nat.eqb (total_messages st) 0 then Scores zero zero zero
  else
    Scores
      (sub one (ratio (count (empty_messages st)) (count (total_messages st))))
      (sub one (min1 (add (mul (of_int (count (large_gaps st))) (ratio 1 10))
                          (ratio (count (invalid_dates st)) (count (total_messages st))))))
      (min1 (div (of_int (count (replies st)))
                 (mul (of_int (count (total_messages st))) (ratio 3 10)))).

(** [sum(scores[k] * weights[k] for k in scores)], from 0, in key order. *)
Definition weighted (sc : scores F) : F :=
  add (add (add zero (mul (content sc) (ratio 8 10)))
           (mul (time sc) (ratio 1 10)))
      (mul (interaction sc) (ratio 1 10)).

Definition calc_quality (input : json) : result (quality_data F) :=
  messages <- Py.get input "messages" (JList []) ;;
  msgs <- py_iter messages ;;
  st <- analyze_all msgs (Stats (List.length msgs) 0 0 0 0, None) ;;
  let sc := component (fst st) in
  Ok (QualityData (round3 (weighted sc))
                  (Scores (round3 (content sc)) (round3 (time sc)) (round3 (interaction sc)))
                  (fst st)).

Definition calc_authenticity (input : json) : result F :=
  chat_type <- Py.get input "type" (JStr "") ;;
  match chat_type with
  | JStr t => Ok (if String.eqb t "personal_chat" || String.eqb t "ai_chat" then one else zero)
  | _ => Ok zero
  end.

(** The check string: the pairs other than [hash], sorted, one per line. *)
Definition data_check_string (parsed_data : list (string * string)) : string :=
  join newline
    (map (fun kv => (fst kv ++ "=" ++ snd kv)%string)
         (filter (fun kv => negb (String.eqb (fst kv) "hash")) (sorted parsed_data))).

(** [h.hexdigest()] for the key [bot_key] and the payload [parsed_data]. *)
Definition signature (bot_key : string) (parsed_data : list (string * string)) : string :=
  let secret_key := Hmac.digest (bytes_of "WebAppData") (bytes_of bot_key) in
  Hmac.hexdigest secret_key (bytes_of (data_check_string parsed_data)).

Definition calc_ownership (cfg : config) (input : json) : result F :=
  let parsed_data := Py.dict_of (Urllib.parse_qsl (tg_init_data cfg)) in
  match telegram_bot_access_key cfg with
  | None => Raise AttributeError
  | Some bot_key =>
      let hash := match Py.lookup "hash" parsed_data with Some v => v | None => "" end in
      if String.eqb (signature bot_key parsed_data) hash then
        match Py.lookup "user" parsed_data with
        | Some user_info =>
            if negb (String.eqb user_info "") then
              user <- Json.loads user_info ;;
              tg_id <- Py.get user "id" JNull ;;
              if contains (Py.str tg_id) (Py.str input) then Ok one else Ok zero
            else Ok zero
        | None => Ok zero
        end
      else Ok zero
  end.

(** The loading loop: [input_data], initially [None], becomes the value of
    the first file that parses. *)
Fixpoint load (files : list (string * file)) (input_data : json) : result json :=
  match files with
  | [] => Ok input_data
  | (input_filename, Unreadable) :: _ => Raise OSError
  | (input_filename, Text t) :: rest =>
      match Json.loads t with
      | Ok v => Ok v
      | Raise JSONDecodeError => load rest input_data
      | Raise e => Raise e
      end
  end.

(** The verdict once the signature holds and a user field is present. *)
Definition user_verdict (user_info : string) (input : json) : result F :=
  user <- Json.loads user_info ;;
  tg_id <- Py.get user "id" JNull ;;
  if contains (Py.str tg_id) (Py.str input) then Ok one else Ok zero.

Definition lift {A} (r : result A) (s : s3) : result A * s3 := (r, s).

(** The body of [generate] after the loading loop, on the loaded record. *)
Definition respond (cfg : config) (input_data : json) (s : s3)
  : result (ProofResponse F) * s3 :=
  match calc_uniqueness cfg input_data s with
  | (Raise e, s1) => (Raise e, s1)
  | (Ok uniq, s1) =>
      lift
        (own <- calc_ownership cfg input_data ;;
         auth <- calc_authenticity input_data ;;
         quality_data <- calc_quality input_data ;;
         let qual := quality_score quality_data in
         slug <- Py.get input_data "character_slug" (JStr "") ;;
         level <- Py.get input_data "character_level" (JStr "") ;;
         type <- Py.get input_data "type" (JStr "") ;;
         Ok (Response (dlp_id cfg) uniq own auth qual
               (round3 (add (mul (ratio 6 10) qual) (mul (ratio 4 10) own)))
               (eqb uniq one)
               (Attributes (qstats quality_data)
                           (total_messages (qstats quality_data))
                           (component_scores quality_data) slug level)
               (Metadata (dlp_id cfg) type (allow_reuse cfg))))
        s1
  end.

Definition generate (cfg : config) (files : list (string * file)) (s : s3)
  : result (ProofResponse F) * s3 :=
  match load files JNull with
  | Raise e => (Raise e, s)
  | Ok JNull => (Raise ValueError, s)
  | Ok input_data => respond cfg input_data s
  end.

End Proof.

(** * Vocabulary of the properties *)

Definition bot_key : string := "123:ABC".

(** The two-message record of the quality scenario, as a file would hold it. *)
Definition scenario_text : string :=
  ("{" ++ q "type" ++ ":" ++ q "ai_chat" ++ "," ++ q "owner" ++ ":42," ++ q "messages" ++ ":[{"
   ++ q "text" ++ ":" ++ q "hi" ++ "," ++ q "date" ++ ":" ++ q "2024-01-01T00:00:00" ++ "},{"
   ++ q "text" ++ ":" ++ q "" ++ "," ++ q "date" ++ ":" ++ q "2024-01-03T00:00:00" ++ "}]}")%string.

Definition scenario_messages : json :=
  JList [JDict [("text", JStr "hi"); ("date", JStr "2024-01-01T00:00:00")];
         JDict [("text", JStr ""); ("date", JStr "2024-01-03T00:00:00")]].

Definition scenario_record : json :=
  JDict [("type", JStr "ai_chat"); ("owner", JInt 42); ("messages", scenario_messages)].

(** A payload signed with [bot_key], for the user of id 42. *)
Definition signed_payload : string :=
  "query_id=AAE&user=%7B%22id%22%3A42%2C%22first_name%22%3A%22Ann%22%7D&auth_date=1700000000&hash=551a70da0bc2c99f8d86fb235e56f863be221d95f63fc119e08a3d3ddea028fa".

Definition demo_config : config :=
  Config 8 "/input" (Some bot_key) None (Some signed_payload) (Some "id") (Some "secret").

Definition empty_registry : s3 := S3 (Some (Doc (JDict [("hash_list", JList [])]))) [].

Definition scenario_stats : stats := Stats 2 1 0 1 0.

Definition demo_files : list (string * file) :=
  [("notes.txt", Text "exported chat, see chat.json"); ("chat.json", Text scenario_text)].

(** The response of the demonstration run: a first submission of the scenario
    record, by its verified owner. *)
Definition demo_response : ProofResponse float :=
  Response 8 1%float 1%float 1%float 0.49%float 0.694%float true
    (Attributes scenario_stats 2%nat (Scores 0.5%float 0.9%float 0%float) (JStr "") (JStr ""))
    (Metadata 8 (JStr "ai_chat") None).

Definition demo_registry : s3 :=
  S3 (Some (Doc (JDict [("hash_list",
        JList [JStr "87c3a8ec5a6fc6f4976e7ebb16c6e2e6cf075cff2f9a8cfe7ad71dc1c6489992"])]))) [].

(** The next request to the store goes through. *)
Definition up (s : s3) : bool := negb (hd false (outages s)).

(** The fingerprint list of a stored document. *)
Definition hash_list_of (d : list (string * json)) : json :=
  match Py.lookup "hash_list" d with
  | Some l => l
  | None => JList []
  end.

Definition never_written : s3 := S3 None [].





(** [parsed_data] of a configuration. *)
Definition parsed (cfg : config) : list (string * string) :=
  Py.dict_of (Urllib.parse_qsl (tg_init_data cfg)).

(** The payload's [hash] value, the empty string when it has none. *)
Definition hash_of (pd : list (string * string)) : string :=
  match Py.lookup "hash" pd with
  | Some v => v
  | None => ""
  end.

(** The signature computed from the payload equals the hash it carries. *)
Definition verified (key : string) (pd : list (string * string)) : bool :=
  String.eqb (signature key pd) (hash_of pd).





(** Payloads signed with [bot_key] whose user field is an object without id,
    a text that is not JSON, and a JSON list. *)
Definition config_of (payload : string) : config :=
  Config 8 "/input" (Some bot_key) None (Some payload) (Some "id") (Some "secret").

Definition no_id_payload : string :=
  "user=%7B%7D&hash=a92c8ab3424182e69d9481dca0ab4ce1bcdd87ae79dacb96950186f47ab627db".



(** [signed_payload] with the last character of its hash changed. *)
Definition tampered_payload : string :=
  "query_id=AAE&user=%7B%22id%22%3A42%2C%22first_name%22%3A%22Ann%22%7D&auth_date=1700000000&hash=551a70da0bc2c99f8d86fb235e56f863be221d95f63fc119e08a3d3ddea028fb".

Definition null_reply_record : json :=
  JDict [("type", JStr "ai_chat"); ("messages", JList [JDict [("text", JStr "hi"); ("reply_to_message_id", JNull)]])].






(** The record's [type] field, [''] when it has none. *)
Definition type_of (d : list (string * json)) : json :=
  match Py.lookup "type" d with
  | Some t => t
  | None => JStr ""
  end.

Definition is_dict (x : json) : bool :=
  match x with
  | JDict _ => true
  | _ => false
  end.

(** The messages of a record that is an object. *)
Definition messages_of (d : list (string * json)) : json :=
  match Py.lookup "messages" d with
  | Some m => m
  | None => JList []
  end.

(** 1 once a date has been parsed, 0 before. *)
Definition seen (p : option Z) : nat :=
  match p with
  | Some _ => 1
  | None => 0
  end.


Definition no_stats : stats := Stats 0 0 0 0 0.

Definition undated_record : json :=
  JDict [("messages", JList [JDict [("text", JStr "hi"); ("date", JStr "yesterday")];
                             JDict [("text", JStr "there")]])].

(** The list a stored body holds, when it is an object with a list under
    [hash_list]. *)
Definition stored_list (o : option body) : option (list json) :=
  match o with
  | Some (Doc (JDict d)) =>
      match hash_list_of d with
      | JList l => Some l
      | _ => None
      end
  | _ => None
  end.



(** The process environment: each variable once. *)
Definition environ : Type := list (string * string).

Definition is_quote (c : ascii) : bool := (byte_of c =? 34) || (byte_of c =? 39).

Fixpoint lstrip (s : string) : string :=
  match s with
  | String c s' => if is_quote c then lstrip s' else s
  | EmptyString => ""
  end.

Fixpoint rstrip (s : string) : string :=
  match s with
  | String c s' =>
      match rstrip s' with
      | EmptyString => if is_quote c then "" else String c ""
      | r => String c r
      end
  | EmptyString => ""
  end.

(** [s.strip(chars)] for the two quote characters: leading and trailing
    quotes are removed. *)
Definition strip (s : string) : string := rstrip (lstrip s).

Definition load_config (env : environ) : config :=
  Config 8 "/input"
    (Py.lookup "TELEGRAM_BOT_ACCESS_KEY" env)
    (Py.lookup "ALLOW_REUSE" env)
    (match Py.lookup "TELEGRAM_INIT_DATA" env with
     | Some v => if String.eqb v "" then None else Some (strip v)
     | None => None
     end)
    (Py.lookup "FILEBASE_ACCESS_KEY_ID" env)
    (Py.lookup "FILEBASE_SECRET_ACCESS_KEY" env).

(** A string made of quote characters only. *)
Fixpoint quotes (s : string) : bool :=
  match s with
  | String c s' => is_quote c && quotes s'
  | EmptyString => true
  end.

(** The first and the last character of a string, when it has any. *)
Definition first_char (s : string) : option ascii :=
  match s with
  | String c _ => Some c
  | EmptyString => None
  end.

Fixpoint last_char (s : string) : option ascii :=
  match s with
  | String c EmptyString => Some c
  | String _ s' => last_char s'
  | EmptyString => None
  end.

(** A non-empty string that neither starts nor ends with a quote. *)
Definition bare (s : string) : bool :=
  match first_char s, last_char s with
  | Some a, Some b => negb (is_quote a) && negb (is_quote b)
  | _, _ => false
  end.

(** The order of two keys. *)
Definition key_lt (a b : string * string) : bool := String.ltb (fst a) (fst b).









(** * Checks of the runtime model against known values *)

Example sha256_constants :
  firstn 2 Sha256.K = [0x428a2f98; 0x71374491] /\ nth 63 Sha256.K 0 = 0xc67178f2
  /\ firstn 2 Sha256.H0 = [0x6a09e667; 0xbb67ae85] /\ nth 7 Sha256.H0 0 = 0x5be0cd19
  /\ List.length Sha256.K = 64%nat.
Proof. repeat split. Qed.

Example sha256_abc :
  Sha256.hexdigest (bytes_of "abc")
  = "ba7816bf8f01cfea414140de5dae2223b00361a396177a9cb410ff61f20015ad".
Proof. vm_compute. reflexivity. Qed.

Example sha256_two_blocks :
  Sha256.hexdigest (bytes_of "abcdbcdecdefdefgefghfghighijhijkijkljklmklmnlmnomnopnopq")
  = "248d6a61d20638b8e5c026930c3e6039a33ce45964ff2167f6ecedd419db06c1".
Proof. vm_compute. reflexivity. Qed.

Example hmac_rfc4231_case2 :
  Hmac.hexdigest (bytes_of "Jefe") (bytes_of "what do ya want for nothing?")
  = "5bdcc146bf60754e6a042426089575c75a003f089d2739839dec58b964ec3843".
Proof. vm_compute. reflexivity. Qed.

Example repr_record :
  Py.repr (JDict [("type", JStr "ai_chat"); ("n", JInt (-42)); ("m", JList [JNull; JBool true; JStr "it's"])])
  = ("{'type': 'ai_chat', 'n': -42, 'm': [None, True, "
     ++ String dquote "it's" ++ String dquote "]}")%string.
Proof. vm_compute. reflexivity. Qed.

Example loads_record :
  Json.loads ("{ " ++ q "type" ++ ": " ++ q "ai_chat" ++ ", " ++ q "n" ++ " : [1, -2.50e3, null, true], "
              ++ q "type" ++ ":" ++ q "a\u00e9\n" ++ "}  ")%string
  = Ok (JDict [("type", JStr (String "a" (String (ascii_of 195) (String (ascii_of 169) (String (ascii_of 10) "")))));
               ("n", JList [JInt 1; JFloat "-2.50e3"; JNull; JBool true])]).
Proof. vm_compute. reflexivity. Qed.

Example loads_rejects :
  map Json.loads ["{"; "[1,]"; "01"; "nul"; ""; "1 2"; "-"; "{1:2}"; "[1 2]"]
  = repeat (Raise JSONDecodeError) 9.
Proof. vm_compute. reflexivity. Qed.

Example loads_scalars :
  map Json.loads ["null"; " 12 "; "-0"; "1.5"; "[]"; "{}"; "1e5"; "[[], {}]"]
  = map Ok [JNull; JInt 12; JInt 0; JFloat "1.5"; JList []; JDict []; JFloat "1e5"; JList [JList []; JDict []]].
Proof. vm_compute. reflexivity. Qed.

Example parse_qsl_fields :
  Urllib.parse_qsl (Some "user=%7B%22id%22%3A42%7D&a=1+2&&b&c=&a=3&hash=ab%zz")
  = [("user", "{" ++ q "id" ++ ":42}"); ("a", "1 2"); ("a", "3"); ("hash", "ab%zz")]%string.
Proof. vm_compute. reflexivity. Qed.

Example strptime_gap :
  Datetime.strptime "2024-01-03T00:00:00" = Some 63839923200
  /\ Datetime.strptime "2024-01-01T00:00:00" = Some (63839923200 - 172800)
  /\ Datetime.strptime "2024-1-3t0:0:0" = Some 63839923200
  /\ Datetime.ymd2ord 2024 1 3 = 738888.
Proof. vm_compute. repeat split. Qed.

Example strptime_rejects :
  map Datetime.strptime
    ["2024-02-30T00:00:00"; "2024-01-01 00:00:00"; "2024-01-01T00:00:60"; "2024-01-01T00:00:075";
     "2024-13-01T00:00:00"; "0000-01-01T00:00:00"; "2023-02-29T10:00:00"; "2024-01-01T24:00:00"; ""]
  = repeat None 9.
Proof. vm_compute. reflexivity. Qed.

Example binary64_round3 :
  map round3 [0.49000000000000005; 0.0005; 0.0015; 2.6745; 0.9375; 1.0000000000000002; 0.1234567]%float
  = [0.49; 0.001; 0.002; 2.675; 0.938; 1; 0.123]%float.
Proof. vm_compute. reflexivity. Qed.

Example exact_round3 :
  map round3 [49 # 100; 5 # 10000; 15 # 10000; 15 # 16; 1234567 # 10000000]%Q
  = [49 # 100; 0; 1 # 500; 469 # 500; 123 # 1000]%Q.
Proof. vm_compute. reflexivity. Qed.

(** * Properties of the pipeline *)

Example scenario_text_loads : Json.loads scenario_text = Ok scenario_record.
Proof. vm_compute. reflexivity. Qed.

(** C8: on the record whose messages are a non-empty text dated 2024-01-01
    and an empty text dated 2024-01-03, [calc_quality] counts 2 messages, 1
    empty, 1 large gap, no invalid date and no reply, and returns content 0.5,
    time 0.9, interaction 0.0 and quality 0.49, in binary64 as in exact
    arithmetic. *)
Theorem scenario_quality (d : list (string * json)) :
  Py.lookup "messages" d = Some scenario_messages ->
  calc_quality (JDict d)
    = Ok (QualityData 0.49%float (Scores 0.5%float 0.9%float 0%float) scenario_stats)
  /\ calc_quality (JDict d)
    = Ok (QualityData (49 # 100)%Q (Scores (1 # 2)%Q (9 # 10)%Q 0%Q) scenario_stats).
Proof.
  intros Hm. unfold calc_quality. cbn [Py.get bind]. rewrite Hm.
  split; vm_compute; reflexivity.
Qed.

Lemma scenario_quality_witness :
  calc_quality scenario_record
    = Ok (QualityData 0.49%float (Scores 0.5%float 0.9%float 0%float) scenario_stats)
  /\ calc_quality scenario_record
    = Ok (QualityData (49 # 100)%Q (Scores (1 # 2)%Q (9 # 10)%Q 0%Q) scenario_stats).
Proof.
  apply (scenario_quality [("type", JStr "ai_chat"); ("owner", JInt 42); ("messages", scenario_messages)]).
  reflexivity.
Defined.

(** ** Aggregation *)

Section Aggregation.

Context {F : Type} `{PyNum F}.

(** What [respond] returns when it returns. *)
Lemma respond_inv cfg input_data s (r : ProofResponse F) s' :
  respond cfg input_data s = (Ok r, s') ->
  exists qd,
    calc_uniqueness cfg input_data s = (Ok (uniqueness r), s')
    /\ calc_ownership cfg input_data = Ok (ownership r)
    /\ calc_authenticity input_data = Ok (authenticity r)
    /\ calc_quality input_data = Ok qd
    /\ quality r = quality_score qd
    /\ a_component_scores (r_attributes r) = component_scores qd
    /\ a_stats (r_attributes r) = qstats qd
    /\ score r = round3 (add (mul (ratio 6 10) (quality r)) (mul (ratio 4 10) (ownership r)))
    /\ valid r = eqb (uniqueness r) one.
Proof.
  unfold respond, lift. intros Hg.
  destruct (calc_uniqueness cfg input_data s) as [[uniq|e] s1] eqn:Hu; [|discriminate].
  destruct (calc_ownership cfg input_data) as [own|e] eqn:Ho; [|discriminate].
  destruct (calc_authenticity input_data) as [auth|e] eqn:Ha; [|discriminate].
  destruct (calc_quality input_data) as [qd|e] eqn:Hq; [|discriminate].
  cbn [bind] in Hg.
  destruct (Py.get input_data "character_slug" (JStr "")) as [slug|e]; [|discriminate].
  destruct (Py.get input_data "character_level" (JStr "")) as [level|e]; [|discriminate].
  destruct (Py.get input_data "type" (JStr "")) as [type|e]; [|discriminate].
  cbn [bind] in Hg. inversion Hg; subst; clear Hg. cbn.
  exists qd. repeat split; auto.
Qed.

(** What [generate] returns once a record is loaded. *)
Lemma generate_inv cfg files s (r : ProofResponse F) s' :
  generate cfg files s = (Ok r, s') ->
  exists input_data,
    load files JNull = Ok input_data
    /\ input_data <> JNull
    /\ respond cfg input_data s = (Ok r, s').
Proof.
  unfold generate. intros Hg.
  destruct (load files JNull) as [input_data|e] eqn:Hl; [|discriminate].
  exists input_data. split; [reflexivity|].
  destruct input_data; try discriminate; (split; [discriminate|exact Hg]).
Qed.

(** C2: when [generate] returns a response, its score is
    [round(0.6 * quality + 0.4 * ownership, 3)], a function of quality and
    ownership alone, and it is valid exactly when its uniqueness equals 1.0. *)
Theorem generate_score_valid cfg files s (r : ProofResponse F) s' :
  generate cfg files s = (Ok r, s') ->
  score r = round3 (add (mul (ratio 6 10) (quality r)) (mul (ratio 4 10) (ownership r)))
  /\ (valid r = true <-> eqb (uniqueness r) (of_int 1) = true).
Proof.
  intros Hg. destruct (generate_inv _ _ _ _ _ Hg) as (v & _ & _ & Hr).
  destruct (respond_inv _ _ _ _ _ Hr) as (qd & _ & _ & _ & _ & _ & _ & _ & Hs & Hv).
  split; [exact Hs|]. rewrite Hv. reflexivity.
Qed.

End Aggregation.

Example demo_run : generate demo_config demo_files empty_registry = (Ok demo_response, demo_registry).
Proof. vm_compute. reflexivity. Qed.

Lemma generate_score_valid_witness :
  score demo_response
  = round3 (add (mul (ratio 6 10) (quality demo_response)) (mul (ratio 4 10) (ownership demo_response)))
  /\ (valid demo_response = true <-> eqb (uniqueness demo_response) (of_int 1) = true).
Proof.
  apply (generate_score_valid demo_config demo_files empty_registry demo_response demo_registry).
  vm_compute. reflexivity.
Defined.

(** ** The registry client *)

Lemma request_object s : object (snd (request s)) = object s.
Proof. unfold request. destruct (outages s); reflexivity. Qed.

Lemma request_up s : up s = true -> fst (request s) = false.
Proof. unfold up, request. destruct (outages s) as [|[] ?]; cbn; congruence. Qed.

Lemma request_down s : up s = false -> fst (request s) = true.
Proof. unfold up, request. destruct (outages s) as [|[] ?]; cbn; congruence. Qed.

Lemma get_object_state s : snd (get_object s) = snd (request s).
Proof.
  unfold get_object. destruct (request s) as [[] s1]; cbn; [reflexivity|].
  destruct (object s1); reflexivity.
Qed.

Lemma get_hash_list_state s :
  snd (FilebaseService.get_hash_list s) = snd (request s).
Proof.
  unfold FilebaseService.get_hash_list. rewrite <- get_object_state.
  destruct (get_object s) as [[[|v]|e] s1]; reflexivity.
Qed.

Lemma get_hash_list_value s :
  fst (FilebaseService.get_hash_list s) =
  if up s then
    match object s with
    | Some (Doc (JDict d)) => Ok (hash_list_of d)
    | Some (Doc _) => Raise AttributeError
    | Some Garbage => Raise JSONDecodeError
    | None => Raise ClientError
    end
  else Raise ClientError.
Proof.
  unfold FilebaseService.get_hash_list, get_object.
  pose proof (request_object s) as Ho.
  destruct (up s) eqn:Hu.
  - pose proof (request_up s Hu) as Hr.
    destruct (request s) as [down s1]; cbn in *; subst down. rewrite Ho.
    destruct (object s) as [[|v]|]; try reflexivity.
  - pose proof (request_down s Hu) as Hr.
    destruct (request s) as [down s1]; cbn in *; subst down. reflexivity.
Qed.

(** C6, as the code has it: the fetch returns a list exactly when the request
    goes through and the stored body is a JSON object, and the list is then
    its [hash_list] field, or the empty list when it has no such field; a
    failed request, a missing key, a body that is not JSON and a document
    that is not an object all raise; the stored object is left as it was. *)
Theorem get_hash_list_spec (s : s3) :
  (forall v, fst (FilebaseService.get_hash_list s) = Ok v <->
             up s = true /\ exists d, object s = Some (Doc (JDict d)) /\ v = hash_list_of d)
  /\ ((up s = false \/ object s = None \/ object s = Some Garbage
       \/ exists v, object s = Some (Doc v) /\ forall d, v <> JDict d) ->
      exists e, fst (FilebaseService.get_hash_list s) = Raise e)
  /\ object (snd (FilebaseService.get_hash_list s)) = object s.
Proof.
  rewrite get_hash_list_state, request_object, get_hash_list_value.
  split; [|split; [|reflexivity]].
  - intros v. split.
    + destruct (up s); [|discriminate]. intros Hv. split; [reflexivity|].
      destruct (object s) as [[|w]|]; try discriminate.
      destruct w; try discriminate. inversion Hv. eauto.
    + intros (-> & d & -> & ->). reflexivity.
  - intros [->|[->|[->|(v & -> & Hv)]]].
    + eauto.
    + destruct (up s); eauto.
    + destruct (up s); eauto.
    + destruct (up s); [|eauto]. destruct v; eauto. exfalso. eapply Hv; reflexivity.
Qed.

(** C6, as stated, fails on a registry key that has never been written: the
    fetch raises the client's error instead of returning the empty list. *)
Lemma get_hash_list_never_written :
  FilebaseService.get_hash_list never_written = (Raise ClientError, never_written).
Proof. reflexivity. Qed.

(** ** The loading loop *)



Section Loading.

Context {F : Type} `{PyNum F}.


End Loading.



(** A file holding [null] parses, ends the loop, and is then taken for the
    absence of any record. *)
Example generate_null_file :
  Json.loads "null" = Ok JNull
  /\ generate (F := float) demo_config [("a.json", Text "null"); ("chat.json", Text scenario_text)] empty_registry
     = (Raise ValueError, empty_registry).
Proof. split; vm_compute; reflexivity. Qed.

(** ** Uniqueness *)




Lemma put_object_ok b s :
  up s = true -> put_object b s = (Ok tt, S3 (Some b) (outages (snd (request s)))).
Proof.
  intros Hu. unfold put_object. pose proof (request_up s Hu) as Hr.
  destruct (request s) as [down s1]; cbn in *; subst down. reflexivity.
Qed.


Section Uniqueness.

Context {F : Type} `{PyNum F}.




End Uniqueness.


(** The first submission of the scenario record is unique and is written to
    the registry; the second is a duplicate and writes nothing. *)
Example resubmission :
  calc_uniqueness (F := float) demo_config scenario_record empty_registry = (Ok 1%float, demo_registry)
  /\ calc_uniqueness (F := float) demo_config scenario_record demo_registry = (Ok 0%float, demo_registry).
Proof. split; vm_compute; reflexivity. Qed.

(** ** Ownership *)

Lemma lookup_in {V} k (v : V) d : Py.lookup k d = Some v -> In (k, v) d.
Proof.
  induction d as [|[k' v'] d IH]; cbn; [discriminate|].
  destruct (String.eqb_spec k k') as [->|Hne].
  - intros Hv. inversion Hv. now left.
  - intros Hv. right. auto.
Qed.

Lemma in_setitem {V} k (v : V) d kv :
  In kv (Py.setitem k v d) -> kv = (k, v) \/ In kv d.
Proof.
  induction d as [|[k' v'] d IH]; cbn.
  - intros [<-|[]]. now left.
  - destruct (String.eqb k k'); cbn; intros [<-|Hi]; auto.
    + destruct (IH Hi); auto.
Qed.

Lemma in_dict_of {V} (pairs : list (string * V)) kv :
  In kv (Py.dict_of pairs) -> In kv pairs.
Proof.
  unfold Py.dict_of.
  assert (G : forall d, In kv (fold_left (fun d kv => Py.setitem (fst kv) (snd kv) d) pairs d) ->
                        In kv pairs \/ In kv d).
  { induction pairs as [|[k v] pairs IH]; cbn; [auto|].
    intros d Hi. destruct (IH _ Hi) as [Hp|Hs]; [auto|].
    destruct (in_setitem _ _ _ _ Hs) as [->|Hd]; auto. }
  intros Hi. destruct (G [] Hi) as [Hp|[]]. exact Hp.
Qed.

Lemma unquote_nonempty s : s <> "" -> Urllib.unquote s <> "".
Proof.
  destruct s as [|c s]; [congruence|]. intros _. cbn.
  destruct (byte_of c =? 37); [|discriminate].
  destruct s as [|a [|b r]]; try discriminate.
  destruct (Json.hex_val (byte_of a)); [|discriminate].
  destruct (Json.hex_val (byte_of b)); discriminate.
Qed.

Lemma plus_to_space_nonempty s : s <> "" -> Urllib.plus_to_space s <> "".
Proof. destruct s; [congruence|]. discriminate. Qed.

(** [parse_qsl] drops blank values: every value it yields is non-empty. *)
Lemma parse_qsl_nonblank qs k v : In (k, v) (Urllib.parse_qsl qs) -> v <> "".
Proof.
  unfold Urllib.parse_qsl. destruct qs as [s|]; [|intros []].
  destruct (String.eqb s ""); [intros []|].
  rewrite in_flat_map. intros (nv & _ & Hi).
  destruct (Urllib.split_eq nv) as [[n w]|]; [|destruct Hi].
  destruct (String.eqb w "") eqn:Hw; [destruct Hi|].
  apply String.eqb_neq in Hw.
  destruct Hi as [Hi|[]]. inversion Hi; subst.
  apply unquote_nonempty, plus_to_space_nonempty, Hw.
Qed.

Lemma parsed_nonblank cfg k v : Py.lookup k (parsed cfg) = Some v -> v <> "".
Proof.
  intros Hl. apply lookup_in, in_dict_of in Hl. eapply parse_qsl_nonblank; eauto.
Qed.

Section Ownership.

Context {F : Type} `{PyNum F}.

Lemma calc_ownership_eq cfg input key :
  telegram_bot_access_key cfg = Some key ->
  calc_ownership (F := F) cfg input =
  if verified key (parsed cfg) then
    match Py.lookup "user" (parsed cfg) with
    | Some user_info => user_verdict user_info input
    | None => Ok zero
    end
  else Ok zero.
Proof.
  intros Hk. unfold calc_ownership, verified, hash_of. fold (parsed cfg). rewrite Hk.
  destruct (String.eqb _ _); [|reflexivity].
  destruct (Py.lookup "user" (parsed cfg)) as [u|] eqn:Hu; [|reflexivity].
  destruct (String.eqb_spec u "") as [->|Hne]; [|reflexivity].
  exfalso. eapply parsed_nonblank; eauto.
Qed.





End Ownership.

(** *** The check string does not depend on the hash value *)















Lemma one_neq_zero_binary64 : (one : float) <> zero.
Proof.
  intros E. apply (f_equal (fun x => PrimFloat.eqb x 1%float)) in E.
  vm_compute in E. discriminate E.
Qed.



Example ownership_of_none :
  calc_ownership (F := float) (config_of no_id_payload) null_reply_record = Ok 1%float.
Proof. vm_compute. reflexivity. Qed.


(** The signed payload of user 42 owns the scenario record, in which 42
    occurs; the same payload with one character of its hash changed parses to
    the same fields with another hash, and owns nothing. *)
Example ownership_signed_and_tampered :
  calc_ownership (F := float) demo_config scenario_record = Ok 1%float
  /\ parsed (config_of tampered_payload)
     = Py.setitem "hash" "551a70da0bc2c99f8d86fb235e56f863be221d95f63fc119e08a3d3ddea028fb"
         (parsed demo_config)
  /\ calc_ownership (F := float) (config_of tampered_payload) scenario_record = Ok 0%float.
Proof. repeat split; vm_compute; reflexivity. Qed.



(** ** Score bounds *)

Section Values.

Context {F : Type} `{PyNum F}.

Lemma calc_uniqueness_values cfg input s (u : F) s' :
  calc_uniqueness cfg input s = (Ok u, s') -> u = zero \/ u = one.
Proof.
  unfold calc_uniqueness.
  destruct (FilebaseService.get_hash_list s) as [[existing|e] s1]; [|discriminate].
  destruct (py_in _ existing) as [[|]|e]; [| |discriminate].
  - intros E. inversion E. now left.
  - destruct (FilebaseService.update_hash_list _ _ s1) as [[b|e] s2]; [|discriminate].
    intros E. inversion E. now right.
Qed.

Lemma calc_ownership_values cfg input (o : F) :
  calc_ownership cfg input = Ok o -> o = zero \/ o = one.
Proof.
  destruct (telegram_bot_access_key cfg) as [key|] eqn:Hk;
    [|unfold calc_ownership; rewrite Hk; discriminate].
  rewrite (calc_ownership_eq _ _ _ Hk).
  destruct (verified _ _); [|intros E; inversion E; now left].
  destruct (Py.lookup "user" _) as [u|]; [|intros E; inversion E; now left].
  unfold user_verdict. destruct (Json.loads u) as [v|e]; [|discriminate]. cbn [bind].
  destruct (Py.get v "id" JNull) as [i|e]; [|discriminate]. cbn [bind].
  destruct (contains _ _); intros E; inversion E; auto.
Qed.

Lemma calc_authenticity_values input (a : F) :
  calc_authenticity input = Ok a -> a = zero \/ a = one.
Proof.
  unfold calc_authenticity. destruct (Py.get input "type" (JStr "")) as [t|e]; [|discriminate].
  cbn [bind]. destruct t; try (intros E; inversion E; now left).
  destruct (_ || _); intros E; inversion E; auto.
Qed.



End Values.

(** *** Exact arithmetic stays in the unit interval *)
















(** ** The fingerprint *)




(** * Further properties of the code *)

(** ** [calc_authenticity] *)

(** X1: on a record that is an object, authenticity is 1.0 exactly when the type
    field is the string [personal_chat] or [ai_chat], and 0.0 otherwise: for
    any other string, for a type that is not a string, and for a record with
    no type.  On a record that is not an object the call raises. *)
Theorem calc_authenticity_spec (input : json) :
  (forall d, input = JDict d ->
     (calc_authenticity (F := float) input = Ok 1%float <->
        type_of d = JStr "personal_chat" \/ type_of d = JStr "ai_chat")
     /\ (calc_authenticity (F := float) input = Ok 1%float
         \/ calc_authenticity (F := float) input = Ok 0%float))
  /\ (is_dict input = false -> calc_authenticity (F := float) input = Raise AttributeError).
Proof.
  assert (Hz : Ok (zero : float) <> Ok one).
  { intros E. apply one_neq_zero_binary64. symmetry.
    exact (f_equal (fun r => match r with Ok x => x | Raise _ => zero end) E). }
  change 1%float with (one : float). change 0%float with (zero : float).
  split.
  - intros d ->. unfold calc_authenticity. cbn [Py.get bind]. fold (type_of d).
    destruct (type_of d) as [| | | |t| |]; try (split; [split; [intros E; contradiction|intros [E|E]; discriminate]|now right]).
    destruct (String.eqb_spec t "personal_chat") as [->|H1]; cbn [orb].
    + split; [split; auto|now left].
    + destruct (String.eqb_spec t "ai_chat") as [->|H2].
      * split; [split; auto|now left].
      * split; [|now right]. split; [intros E; contradiction|].
        intros [E|E]; inversion E; contradiction.
  - destruct input; cbn; intros E; try reflexivity. discriminate.
Qed.

(** ** [calc_quality] *)

Section Quality.

Context {F : Type} `{PyNum F}.

Lemma calc_quality_eq d :
  calc_quality (F := F) (JDict d) =
  (msgs <- py_iter (messages_of d) ;;
   st <- analyze_all msgs (Stats (List.length msgs) 0 0 0 0, None) ;;
   Ok (QualityData (round3 (weighted (component (fst st))))
         (Scores (round3 (content (component (fst st)))) (round3 (time (component (fst st))))
                 (round3 (interaction (component (fst st)))))
         (fst st))).
Proof. reflexivity. Qed.

(** One turn of the loop on a message that is an object never raises. *)
Lemma analyze_dict st p m :
  exists st' p', analyze (st, p) (JDict m) = Ok (st', p').
Proof.
  unfold analyze. destruct st as [t e i g r]. cbn [Py.get bind].
  destruct (parse_date (JDict m)); eauto.
Qed.

Lemma analyze_not_dict st p msg :
  is_dict msg = false -> analyze (st, p) msg = Raise AttributeError.
Proof.
  unfold analyze. destruct st as [t e i g r].
  destruct msg; cbn; intros E; try reflexivity. discriminate.
Qed.

Lemma analyze_all_dicts msgs st p :
  forallb is_dict msgs = true -> exists st' p', analyze_all msgs (st, p) = Ok (st', p').
Proof.
  revert st p. induction msgs as [|msg msgs IH]; cbn [analyze_all forallb]; intros st p Hd.
  - eauto.
  - apply andb_prop in Hd. destruct Hd as [Hm Hd].
    destruct msg; try discriminate.
    destruct (analyze_dict st p d) as (st1 & p1 & ->). cbn [bind]. apply IH, Hd.
Qed.

Lemma analyze_all_not_dict msgs st p :
  forallb is_dict msgs = false -> analyze_all msgs (st, p) = Raise AttributeError.
Proof.
  revert st p. induction msgs as [|msg msgs IH]; cbn [analyze_all forallb]; intros st p Hd.
  - discriminate.
  - destruct (is_dict msg) eqn:Hm.
    + destruct msg; try discriminate.
      destruct (analyze_dict st p d) as (st1 & p1 & ->). cbn [bind]. apply IH, Hd.
    + rewrite (analyze_not_dict _ _ _ Hm). reflexivity.
Qed.

(** X2: date tolerance: on a record that is an object whose messages are a list,
    [calc_quality] returns if every message is an object, whatever its text,
    reply and date fields hold (a missing date, a date that is not a string,
    a string that is not a date), and raises [AttributeError] if some message
    is not an object. *)
Theorem calc_quality_total d l :
  messages_of d = JList l ->
  (forallb is_dict l = true -> exists qd, calc_quality (F := F) (JDict d) = Ok qd)
  /\ (forallb is_dict l = false -> calc_quality (F := F) (JDict d) = Raise AttributeError).
Proof.
  intros Hm. rewrite calc_quality_eq, Hm. cbn [py_iter bind]. split; intros Hd.
  - destruct (analyze_all_dicts l (Stats (List.length l) 0 0 0 0) None Hd) as (st & p & ->).
    cbn [bind]. eauto.
  - rewrite (analyze_all_not_dict _ _ _ Hd). reflexivity.
Qed.

(** The counters of one turn. *)
Lemma analyze_stats st p msg st' p' :
  analyze (st, p) msg = Ok (st', p') ->
  total_messages st' = total_messages st
  /\ (empty_messages st' <= S (empty_messages st))%nat
  /\ (replies st' <= S (replies st))%nat
  /\ (invalid_dates st' + large_gaps st' + seen p' <= S (invalid_dates st + large_gaps st + seen p))%nat
  /\ (seen p <= seen p')%nat
  /\ (seen p' = 0%nat -> invalid_dates st' = S (invalid_dates st) /\ large_gaps st' = large_gaps st).
Proof.
  unfold analyze. destruct st as [t e i g r].
  destruct (Py.get msg "text" JNull) as [text|x]; [|discriminate]. cbn [bind].
  destruct (Py.get msg "reply_to_message_id" JNull) as [reply|x]; [|discriminate]. cbn [bind].
  destruct (parse_date msg) as [cur|]; intros E; inversion E; subst; clear E; cbn.
  - repeat split.
    + destruct (negb (Py.truthy text)); lia.
    + destruct (Py.truthy reply); lia.
    + destruct p as [q0|]; cbn; [destruct (86400 <? cur - q0)|]; lia.
    + destruct p; cbn; lia.
    + discriminate.
    + discriminate.
  - repeat split; try lia.
    + destruct (negb (Py.truthy text)); lia.
    + destruct (Py.truthy reply); lia.
Qed.

Lemma analyze_all_stats msgs st p st' p' :
  analyze_all msgs (st, p) = Ok (st', p') ->
  total_messages st' = total_messages st
  /\ (empty_messages st' <= empty_messages st + List.length msgs)%nat
  /\ (replies st' <= replies st + List.length msgs)%nat
  /\ (invalid_dates st' + large_gaps st' + seen p'
      <= invalid_dates st + large_gaps st + seen p + List.length msgs)%nat
  /\ (seen p <= seen p')%nat
  /\ (seen p' = 0%nat ->
      invalid_dates st' = (invalid_dates st + List.length msgs)%nat /\ large_gaps st' = large_gaps st).
Proof.
  revert st p. induction msgs as [|msg msgs IH]; cbn [analyze_all List.length]; intros st p.
  - intros E. inversion E; subst. repeat split; lia.
  - destruct (analyze (st, p) msg) as [[st1 p1]|x] eqn:Ha; [|discriminate]. cbn [bind].
    intros E. destruct (IH _ _ E) as (T & Em & Re & Iv & Se & Z0).
    destruct (analyze_stats _ _ _ _ _ Ha) as (T1 & Em1 & Re1 & Iv1 & Se1 & Z1).
    repeat split; lia.
Qed.

Lemma calc_quality_total_messages d l (qd : quality_data F) :
  messages_of d = JList l ->
  calc_quality (F := F) (JDict d) = Ok qd ->
  total_messages (qstats qd) = List.length l.
Proof.
  intros Hm. rewrite calc_quality_eq, Hm. cbn [py_iter bind].
  destruct (analyze_all l _) as [[st p]|x] eqn:Ha; [|discriminate]. cbn [bind fst].
  intros E. inversion E; subst; clear E. cbn [qstats].
  apply (analyze_all_stats _ _ _ _ _ Ha).
Qed.

(** X3: the counters [calc_quality] returns: the total is the number of
    messages; empty messages and replies are at most the total; invalid dates
    and large gaps together are at most the total, and less than the total as
    soon as one date parses, a gap needing two parsed dates. *)
Theorem calc_quality_stats d l (qd : quality_data F) :
  messages_of d = JList l ->
  calc_quality (F := F) (JDict d) = Ok qd ->
  total_messages (qstats qd) = List.length l
  /\ (empty_messages (qstats qd) <= List.length l)%nat
  /\ (replies (qstats qd) <= List.length l)%nat
  /\ (invalid_dates (qstats qd) + large_gaps (qstats qd) <= List.length l)%nat
  /\ ((invalid_dates (qstats qd) < List.length l)%nat ->
      (invalid_dates (qstats qd) + large_gaps (qstats qd) < List.length l)%nat).
Proof.
  intros Hm. rewrite calc_quality_eq, Hm. cbn [py_iter bind].
  destruct (analyze_all l _) as [[st p]|x] eqn:Ha; [|discriminate]. cbn [bind fst].
  intros E. inversion E; subst; clear E. cbn [qstats].
  destruct (analyze_all_stats _ _ _ _ _ Ha) as (T & Em & Re & Iv & Se & Z0).
  cbn [total_messages empty_messages replies invalid_dates large_gaps seen] in *.
  repeat split; lia.
Qed.

End Quality.

(** X4: a record with no message, the key being absent or its value empty, has
    every counter, every component score and the quality at 0, in binary64
    and in exact arithmetic. *)
Theorem calc_quality_no_message d :
  py_iter (messages_of d) = Ok [] ->
  calc_quality (JDict d) = Ok (QualityData 0%float (Scores 0%float 0%float 0%float) no_stats)
  /\ calc_quality (JDict d) = Ok (QualityData 0%Q (Scores 0%Q 0%Q 0%Q) no_stats).
Proof.
  intros Hm. rewrite !calc_quality_eq, Hm. split; vm_compute; reflexivity.
Qed.

Lemma calc_quality_no_message_witness :
  calc_quality (JDict [("type", JStr "ai_chat")])
    = Ok (QualityData 0%float (Scores 0%float 0%float 0%float) no_stats)
  /\ calc_quality (JDict [("type", JStr "ai_chat")])
    = Ok (QualityData 0%Q (Scores 0%Q 0%Q 0%Q) no_stats).
Proof. apply (calc_quality_no_message [("type", JStr "ai_chat")]). reflexivity. Defined.





(** ** The registry: writes and failures *)

Lemma put_object_down b s :
  up s = false -> put_object b s = (Raise ClientError, snd (request s)).
Proof.
  intros Hu. unfold put_object. pose proof (request_down s Hu) as Hr.
  destruct (request s) as [down s1]; cbn in *; subst down. reflexivity.
Qed.

(** X6: [update_hash_list] and a later fetch: a write that goes through replaces
    the stored document by the given list followed by the new fingerprint,
    which the next fetch returns; a write that fails in transport raises and
    leaves the stored object as it was; a value that is not a list raises
    [TypeError] before any request is made. *)
Theorem update_hash_list_round_trip (existing : json) (new_hash : string) (s : s3) :
  (forall l, existing = JList l -> up s = true ->
     exists s', FilebaseService.update_hash_list existing new_hash s = (Ok true, s')
                /\ stored_list (object s') = Some (l ++ [JStr new_hash])
                /\ (up s' = true ->
                    fst (FilebaseService.get_hash_list s') = Ok (JList (l ++ [JStr new_hash]))))
  /\ (forall l, existing = JList l -> up s = false ->
     exists s', FilebaseService.update_hash_list existing new_hash s = (Raise ClientError, s')
                /\ object s' = object s)
  /\ ((forall l, existing <> JList l) ->
     FilebaseService.update_hash_list existing new_hash s = (Raise TypeError, s)).
Proof.
  split; [|split].
  - intros l -> Hu. unfold FilebaseService.update_hash_list, FilebaseService.append_hash.
    rewrite (put_object_ok _ _ Hu). eexists. split; [reflexivity|]. split; [reflexivity|].
    intros Hu'. rewrite get_hash_list_value, Hu'. reflexivity.
  - intros l -> Hu. unfold FilebaseService.update_hash_list, FilebaseService.append_hash.
    rewrite (put_object_down _ _ Hu). eexists. split; [reflexivity|]. apply request_object.
  - intros Hn. unfold FilebaseService.update_hash_list, FilebaseService.append_hash.
    destruct existing; try reflexivity. exfalso. eapply Hn. reflexivity.
Qed.

Section Registry.

Context {F : Type} `{PyNum F}.




End Registry.



(** ** The score and the response *)




Section Response.

Context {F : Type} `{PyNum F}.

(** X10: the fields a response carries over: the policy identifier and the reuse
    flag of the configuration, the type, slug and level of the record (the
    empty string for a field the record lacks), and as message count the
    number of messages of the record. *)
Theorem generate_passthrough cfg files s (r : ProofResponse F) s' :
  generate cfg files s = (Ok r, s') ->
  exists d, load files JNull = Ok (JDict d)
    /\ r_dlp_id r = dlp_id cfg
    /\ m_dlp_id (r_metadata r) = dlp_id cfg
    /\ m_allow_reuse (r_metadata r) = allow_reuse cfg
    /\ m_type (r_metadata r) = type_of d
    /\ character_slug (r_attributes r)
       = match Py.lookup "character_slug" d with Some v => v | None => JStr "" end
    /\ character_level (r_attributes r)
       = match Py.lookup "character_level" d with Some v => v | None => JStr "" end
    /\ messages_count (r_attributes r) = total_messages (a_stats (r_attributes r))
    /\ (forall l, messages_of d = JList l -> messages_count (r_attributes r) = List.length l).
Proof.
  intros Hg. destruct (generate_inv _ _ _ _ _ Hg) as (input_data & Hl & _ & Hr).
  unfold respond, lift in Hr.
  destruct (calc_uniqueness cfg input_data s) as [[uniq|e] s1]; [|discriminate].
  destruct (calc_ownership cfg input_data) as [own|e]; [|discriminate].
  destruct (calc_authenticity input_data) as [auth|e] eqn:Ha; [|discriminate].
  destruct input_data as [| | | | | |d]; try discriminate.
  destruct (calc_quality (JDict d)) as [qd|e] eqn:Hq; [|discriminate].
  cbn [bind Py.get] in Hr. inversion Hr; subst; clear Hr. cbn.
  exists d. repeat split; auto.
  intros l Hm. apply (calc_quality_total_messages d l qd Hm Hq).
Qed.

End Response.

Lemma generate_passthrough_witness :
  exists d, load demo_files JNull = Ok (JDict d)
    /\ r_dlp_id demo_response = dlp_id demo_config
    /\ m_dlp_id (r_metadata demo_response) = dlp_id demo_config
    /\ m_allow_reuse (r_metadata demo_response) = allow_reuse demo_config
    /\ m_type (r_metadata demo_response) = type_of d
    /\ character_slug (r_attributes demo_response)
       = match Py.lookup "character_slug" d with Some v => v | None => JStr "" end
    /\ character_level (r_attributes demo_response)
       = match Py.lookup "character_level" d with Some v => v | None => JStr "" end
    /\ messages_count (r_attributes demo_response) = total_messages (a_stats (r_attributes demo_response))
    /\ (forall l, messages_of d = JList l -> messages_count (r_attributes demo_response) = List.length l).
Proof.
  apply (generate_passthrough (F := float) demo_config demo_files empty_registry demo_response demo_registry).
  vm_compute. reflexivity.
Defined.

(** ** The shape of a fingerprint *)










(** ** A hash that cannot verify *)



Section MalformedHash.

Context {F : Type} `{PyNum F}.


End MalformedHash.


(** ** [__main__.py]: [load_config] *)

Lemma lstrip_quotes pre s : quotes pre = true -> lstrip (pre ++ s) = lstrip s.
Proof.
  induction pre as [|c pre IH]; cbn [quotes append lstrip]; [reflexivity|].
  intros Hq. apply andb_prop in Hq. destruct Hq as [Hc Hq]. rewrite Hc. auto.
Qed.

Lemma rstrip_quotes post : quotes post = true -> rstrip post = "".
Proof.
  induction post as [|c post IH]; cbn [quotes rstrip]; [reflexivity|].
  intros Hq. apply andb_prop in Hq. destruct Hq as [Hc Hq]. rewrite (IH Hq), Hc. reflexivity.
Qed.

Lemma rstrip_bare_end s post :
  (exists b, last_char s = Some b /\ is_quote b = false) -> quotes post = true ->
  rstrip (s ++ post) = s.
Proof.
  intros Hl Hq. induction s as [|c s IH]; [destruct Hl as (b & Hb & _); discriminate|].
  cbn [append rstrip]. destruct s as [|c' s'].
  - cbn [append]. rewrite (rstrip_quotes _ Hq).
    destruct Hl as (b & Hb & Hnq). cbn in Hb. inversion Hb; subst. rewrite Hnq. reflexivity.
  - rewrite IH; [reflexivity|]. exact Hl.
Qed.

Lemma bare_ends s :
  bare s = true ->
  lstrip s = s /\ exists b, last_char s = Some b /\ is_quote b = false.
Proof.
  unfold bare. destruct s as [|a s]; [discriminate|]. cbn [first_char].
  destruct (last_char (String a s)) as [b|] eqn:Hb; [|discriminate].
  intros Hq. apply andb_prop in Hq. destruct Hq as [Ha Hbq].
  apply negb_true_iff in Ha, Hbq. split; [cbn [lstrip]; now rewrite Ha|eauto].
Qed.

(** X13: [load_config] and quoting: a payload given in the environment between
    any number of single or double quotes is configured as the bare payload,
    so the quoting does not affect verification; an unset or empty variable
    is configured as no payload; the policy identifier is 8. *)
Theorem load_config_payload (env : environ) :
  (forall pre payload post,
     Py.lookup "TELEGRAM_INIT_DATA" env = Some (pre ++ payload ++ post)%string ->
     quotes pre = true -> quotes post = true -> bare payload = true ->
     tg_init_data (load_config env) = Some payload)
  /\ (Py.lookup "TELEGRAM_INIT_DATA" env = None \/ Py.lookup "TELEGRAM_INIT_DATA" env = Some "" ->
      tg_init_data (load_config env) = None)
  /\ dlp_id (load_config env) = 8
  /\ telegram_bot_access_key (load_config env) = Py.lookup "TELEGRAM_BOT_ACCESS_KEY" env.
Proof.
  split; [|split; [|split; reflexivity]].
  - intros pre payload post He Hpre Hpost Hb. unfold load_config. cbn [tg_init_data]. rewrite He.
    destruct (bare_ends _ Hb) as [Hl Hend].
    destruct payload as [|a p]; [discriminate|].
    assert (Ha : is_quote a = false).
    { cbn [lstrip] in Hl. destruct (is_quote a) eqn:E; [|reflexivity].
      exfalso. unfold bare in Hb. cbn [first_char] in Hb. rewrite E in Hb.
      destruct (last_char (String a p)); discriminate. }
    destruct (String.eqb_spec (pre ++ String a p ++ post)%string "") as [E|_].
    + exfalso. destruct pre; discriminate.
    + f_equal. unfold strip. rewrite (lstrip_quotes _ _ Hpre).
      cbn [append lstrip]. rewrite Ha.
      change (String a (p ++ post)%string) with (String a p ++ post)%string.
      apply rstrip_bare_end; assumption.
  - intros [E|E]; unfold load_config; cbn [tg_init_data]; rewrite E; reflexivity.
Qed.

Example load_config_quoted :
  strip (q "'a'b'") = "a'b"
  /\ calc_ownership (F := float)
       (load_config [("TELEGRAM_BOT_ACCESS_KEY", bot_key); ("TELEGRAM_INIT_DATA", q signed_payload)])
       scenario_record = Ok 1%float.
Proof. split; vm_compute; reflexivity. Qed.

(** ** The order of the payload's fields *)











Section FieldOrder.

Context {F : Type} `{PyNum F}.


End FieldOrder.



(** ** What the counters count *)

Section Counters.

Context {F : Type} `{PyNum F}.





End Counters.


Lemma calc_quality_total_witness :
  (forallb is_dict [JDict [("text", JStr "hi"); ("date", JStr "yesterday")]; JDict [("text", JStr "there")]] = true ->
     exists qd, calc_quality (F := float) undated_record = Ok qd)
  /\ (forallb is_dict [JDict [("text", JStr "hi"); ("date", JStr "yesterday")]; JDict [("text", JStr "there")]] = false ->
     calc_quality (F := float) undated_record = Raise AttributeError).
Proof.
  apply (calc_quality_total (F := float)
           [("messages", JList [JDict [("text", JStr "hi"); ("date", JStr "yesterday")];
                                JDict [("text", JStr "there")]])]
           [JDict [("text", JStr "hi"); ("date", JStr "yesterday")]; JDict [("text", JStr "there")]]).
  reflexivity.
Defined.

Lemma calc_quality_stats_witness :
  total_messages scenario_stats = 2%nat
  /\ (empty_messages scenario_stats <= 2)%nat
  /\ (replies scenario_stats <= 2)%nat
  /\ (invalid_dates scenario_stats + large_gaps scenario_stats <= 2)%nat
  /\ ((invalid_dates scenario_stats < 2)%nat ->
      (invalid_dates scenario_stats + large_gaps scenario_stats < 2)%nat).
Proof.
  apply (calc_quality_stats (F := float)
           [("type", JStr "ai_chat"); ("owner", JInt 42); ("messages", scenario_messages)]
           [JDict [("text", JStr "hi"); ("date", JStr "2024-01-01T00:00:00")];
            JDict [("text", JStr ""); ("date", JStr "2024-01-03T00:00:00")]]
           (QualityData 0.49%float (Scores 0.5%float 0.9%float 0%float) scenario_stats)).
  - reflexivity.
  - vm_compute. reflexivity.
Defined.

Example truthy_floats :
  map Py.truthy [JFloat "0.0"; JFloat "-0.0"; JFloat "0e5"; JFloat "0.5"; JFloat "1e0"; JFloat "nan"; JFloat "-inf"]
  = [false; false; false; true; true; true; true].
Proof. reflexivity. Qed.

(** X16: in binary64, every response [generate] returns has uniqueness,
    ownership and authenticity equal to 0.0 or to 1.0, and it is valid
    exactly when its uniqueness is 1.0. *)
Theorem generate_verdicts cfg files s (r : ProofResponse float) s' :
  generate cfg files s = (Ok r, s') ->
  (uniqueness r = 0%float \/ uniqueness r = 1%float)
  /\ (ownership r = 0%float \/ ownership r = 1%float)
  /\ (authenticity r = 0%float \/ authenticity r = 1%float)
  /\ (valid r = true <-> uniqueness r = 1%float).
Proof.
  intros Hg. destruct (generate_inv _ _ _ _ _ Hg) as (input_data & _ & _ & Hr).
  destruct (respond_inv _ _ _ _ _ Hr) as (qd & Hu & Ho & Ha & _ & _ & _ & _ & _ & Hv).
  pose proof (calc_uniqueness_values _ _ _ _ _ Hu) as Vu.
  pose proof (calc_ownership_values _ _ _ Ho) as Vo.
  pose proof (calc_authenticity_values _ _ Ha) as Va.
  change (zero : float) with 0%float in Vu, Vo, Va.
  change (one : float) with 1%float in Vu, Vo, Va.
  repeat split; try assumption.
  - intros Hval. rewrite Hv in Hval. destruct Vu as [E|E]; [|exact E].
    rewrite E in Hval. vm_compute in Hval. discriminate Hval.
  - intros E. rewrite Hv, E. reflexivity.
Qed.

Lemma generate_verdicts_witness :
  (uniqueness demo_response = 0%float \/ uniqueness demo_response = 1%float)
  /\ (ownership demo_response = 0%float \/ ownership demo_response = 1%float)
  /\ (authenticity demo_response = 0%float \/ authenticity demo_response = 1%float)
  /\ (valid demo_response = true <-> uniqueness demo_response = 1%float).
Proof.
  apply (generate_verdicts demo_config demo_files empty_registry demo_response demo_registry).
  vm_compute. reflexivity.
Defined.
